(** * ChoiceGroup: the selection-state controller of
      [components/form/choice-group/choice-group.tsx]

    The component keeps one selection value for a group of radio buttons or
    checkboxes, either owned by the caller (controlled) or held in a React
    state hook (uncontrolled), derives the none/some/all flags of the
    aggregate checkbox from it, and changes it through two handlers.

    The embedding follows the component function line by line: JavaScript
    values are an inductive type, [undefined] is [None], the state hook and
    the calls made to [props.onChange] live in a store that the handlers
    thread through a small state monad. *)

From Stdlib Require Import NArith Ascii String.
From stdpp Require Import base decidable option list numbers strings gmap.

(** ** JavaScript strings *)

(** A string is its sequence of UTF-16 code units; [===] on strings is
    equality of these sequences and [.length] is their number. *)
Abbreviation jsstring := (list N).

(** ASCII literals, for examples. *)
Definition str (s : string) : jsstring :=
  N_of_ascii <$> list_ascii_of_string s.

Definition isLeadingSurrogate (c : N) : bool :=
  ((55296 <=? c) && (c <=? 56319))%N.

Definition isTrailingSurrogate (c : N) : bool :=
  ((56320 <=? c) && (c <=? 57343))%N.

(** [String.prototype[Symbol.iterator]]: what spreading a string ([...s])
    enumerates. Each step yields the code point at the current position as a
    string of its own: two code units when a leading surrogate is followed by
    a trailing one, one code unit otherwise. *)
Fixpoint stringIterator (s : jsstring) : list jsstring :=
  match s with
  | [] => []
  | c :: rest =>
      match rest with
      | d :: rest' =>
          if isLeadingSurrogate c && isTrailingSurrogate d
          then [c; d] :: stringIterator rest'
          else [c] :: stringIterator rest
      | [] => [[c]]
      end
  end.

(** ** Values and props *)

(** [TChoiceGroupValue = string | string[] | null] *)
Inductive TChoiceGroupValue : Type :=
  | VNull
  | VString (s : jsstring)
  | VArray (a : list jsstring).

(** [TChoiceGroupType = 'radio' | 'checkbox'] *)
Inductive TChoiceGroupType : Type := radio | checkbox.

(** [TChoiceGroupIndeterminateState = 'none' | 'some' | 'all'] *)
Inductive TChoiceGroupIndeterminateState : Type :=
  | StateNone
  | StateSome
  | StateAll.

(** [type?: 'selector' | 'filter' | 'default'] *)
Inductive TChoiceGroupPresentation : Type :=
  | TypeSelector
  | TypeFilter
  | TypeDefault.

(** [string | ((state) => string)] *)
Inductive TIndeterminateCheckLabel : Type :=
  | LabelString (s : jsstring)
  | LabelFunction (f : TChoiceGroupIndeterminateState → jsstring).

#[global] Instance TChoiceGroupValue_eq_dec : EqDecision TChoiceGroupValue.
Proof. solve_decision. Defined.

#[global] Instance TChoiceGroupType_eq_dec : EqDecision TChoiceGroupType.
Proof. solve_decision. Defined.

#[global] Instance TChoiceGroupPresentation_eq_dec :
  EqDecision TChoiceGroupPresentation.
Proof. solve_decision. Defined.

Module Item.
(** Modelled from the spec: [ChoiceGroupItemProps] is declared in
    [choice-group.types], which is not part of the sources at hand. The
    component reads three fields of an item: [id] (the React key),
    [value] (the key the handlers put into the selection) and [disabled];
    the spec gives an item as [{ key, disabled: bool, ... }]. *)
Record t : Type := mk {
  id : jsstring;
  value : jsstring;
  disabled : bool;
}.
End Item.

(** The props the state logic reads. A field of type [option] is an optional
  prop, [None] being [undefined]. The callback [onChange] is opaque to the
  component: the record keeps whether it is present, and the store below
  records every call made to it. *)
Record ChoiceGroupProps : Type := {
items : list Item.t;
inputType : option TChoiceGroupType;
defaultValue : option TChoiceGroupValue;
value : option TChoiceGroupValue;
onChange : bool;
type : option TChoiceGroupPresentation;
indeterminateCheckLabel : option TIndeterminateCheckLabel;
}.

(** ** JavaScript coercions used by the component *)

(** Truthiness of [defaultValue] in [if (defaultValue)]: [undefined], [null]
  and the empty string are falsy; every array, also the empty one, is an
  object and truthy. *)
Definition truthy (v : option TChoiceGroupValue) : bool :=
match v with
| None => false
| Some VNull => false
| Some (VString s) => bool_decide (s ≠ [])
| Some (VArray _) => true
end.

(** Truthiness of [indeterminateCheckLabel]: a function is truthy. *)
Definition truthyLabel (l : option TIndeterminateCheckLabel) : bool :=
match l with
| None => false
| Some (LabelString s) => bool_decide (s ≠ [])
| Some (LabelFunction _) => true
end.

(** [v?.length]: [undefined] on [null], the number of code units of a
  string, the number of elements of an array. *)
Definition optLength (v : TChoiceGroupValue) : option nat :=
match v with
| VNull => None
| VString s => Some (length s)
| VArray a => Some (length a)
end.

(** [Array.isArray] *)
Definition isArray (v : TChoiceGroupValue) : bool :=
match v with
| VArray _ => true
| _ => false
end.

(** ** The store and its monad *)

(** What outlives a render: the state hook, and the arguments of the calls
  made to [props.onChange] so far, oldest first. *)
Record Store : Type := {
innerValue : TChoiceGroupValue;
onChangeCalls : list TChoiceGroupValue;
}.

Definition M (A : Type) : Type := Store → A * Store.

Definition ret {A} (x : A) : M A := λ s, (x, s).

Definition bind {A B} (m : M A) (k : A → M B) : M B :=
λ s, let '(x, s') := m s in k x s'.

Notation "m ;; k" := (bind m (λ _, k))
(at level 100, k at level 200, right associativity).

Definition when (b : bool) (m : M unit) : M unit :=
if b then m else ret tt.

Definition exec (m : M unit) (s : Store) : Store := (m s).2.

(** The setter of the state hook. *)
Definition setInnerValue (v : TChoiceGroupValue) : M unit :=
λ s, (tt, {| innerValue := v; onChangeCalls := onChangeCalls s |}).

(** [[...a]]: a fresh array with the same elements. *)
Definition copyArray (a : list jsstring) : list jsstring := a.

(** ** The component *)

Section ChoiceGroup.
Variable props : ChoiceGroupProps.

(** [inputType = 'radio'] and [type = 'default'] in the destructuring. *)
Definition inputTypeOf : TChoiceGroupType := default radio (inputType props).
Definition typeOf : TChoiceGroupPresentation :=
  default TypeDefault (type props).

Definition showIndeterminate : bool :=
  truthyLabel (indeterminateCheckLabel props)
  && bool_decide (typeOf = TypeDefault)
  && bool_decide (inputTypeOf = checkbox).

(** The initialiser passed to [React.useState]; React runs it when the
    component mounts and never again. *)
Definition initialInnerValue : TChoiceGroupValue :=
  if truthy (defaultValue props) then default VNull (defaultValue props)
  else if bool_decide (inputTypeOf = checkbox) then VArray []
  else VNull.

Definition mount : Store :=
  {| innerValue := initialInnerValue; onChangeCalls := [] |}.

(** [isValueControlled(value = props.value)]: an omitted or [undefined]
    argument takes the default. *)
Definition isValueControlled (arg : option TChoiceGroupValue) : bool :=
  let value := match arg with Some v => Some v | None => value props end in
  onChange props && bool_decide (value ≠ None).

(** [onChange?.(v)] *)
Definition callOnChange (v : TChoiceGroupValue) : M unit :=
  λ s, if onChange props
       then (tt, {| innerValue := innerValue s;
                    onChangeCalls := onChangeCalls s ++ [v] |})
       else (tt, s).

(** The eligible items, [items.filter((item) => !item.disabled)]. *)
Definition enabledItems : list Item.t :=
  filter (λ item, Item.disabled item = false) (items props).

(** *** One render: what the function body computes from the props and the
    state hook as the render reads it. *)
Section Render.
Variable rendered : Store.

Definition currentValue : TChoiceGroupValue :=
  if isValueControlled (value props)
  then default VNull (value props)
  else innerValue rendered.

(** The three [React.useMemo] values. Each lists every value its function
    reads as a dependency, so a render always sees the function applied
    to the current values. *)
Definition isNoneSelected : bool :=
  bool_decide (optLength currentValue = Some 0).

Definition isAllSelected : bool :=
  bool_decide (optLength currentValue = Some (length enabledItems)).

Definition isSomeSelected : bool :=
  negb isNoneSelected && negb isAllSelected.

Definition indeterminateState : TChoiceGroupIndeterminateState :=
  if isAllSelected then StateAll
  else if isNoneSelected then StateNone
  else StateSome.

Definition getIndeterminateLabel : jsstring :=
  match indeterminateCheckLabel props with
  | Some (LabelString s) => s
  | Some (LabelFunction f) => f indeterminateState
  | None => []
  end.

(** Lines 140-150 of [onChangeHandler]: the next value. *)
Definition onChangeNextValue (value : jsstring) (checked : bool)
  : TChoiceGroupValue :=
  match bool_decide (inputTypeOf = checkbox), currentValue with
  | true, VArray nextValue =>
      if checked
      then VArray (nextValue ++ stringIterator value)
      else VArray (filter (λ item, item ≠ value) nextValue)
  | _, _ => VString value
  end.

Definition onChangeHandler (value : jsstring) (checked : bool) : M unit :=
  let nextValue := onChangeNextValue value checked in
  when (negb (isValueControlled None))
    (setInnerValue
       match nextValue with
       | VArray a => VArray (copyArray a)
       | _ => nextValue
       end) ;;
  callOnChange nextValue.

(** Line 190 of [onIndeterminateChangeHandler]: the next value. Neither
    argument of the handler is read. *)
Definition onIndeterminateNextValue : list jsstring :=
  if negb isAllSelected then Item.value <$> enabledItems else [].

Definition onIndeterminateChangeHandler
    (value : jsstring) (checked : bool) : M unit :=
  let nextValue := onIndeterminateNextValue in
  when (negb (isValueControlled None))
    (setInnerValue (VArray (copyArray nextValue))) ;;
  callOnChange (VArray nextValue).
End Render.

(** *** Interactions: a handler of the current render runs on the store
    that render has read. *)
Definition toggleItem (value : jsstring) (checked : bool) (s : Store)
  : Store :=
  exec (onChangeHandler s value checked) s.

Definition toggleIndeterminate (s : Store) : Store :=
  exec (onIndeterminateChangeHandler s (str "indeterminate") true) s.
End ChoiceGroup.

(** *** Stores a group can be in: the one it mounts with, and those the two
    handlers lead to. *)
Inductive reachable (props : ChoiceGroupProps) : Store → Prop :=
  | reachable_mount :
      reachable props (mount props)
  | reachable_toggleItem s value checked :
      reachable props s →
      reachable props (toggleItem props value checked s)
  | reachable_toggleIndeterminate s :
      reachable props s →
      reachable props (toggleIndeterminate props s).

(** Exactly one of three flags is set. *)
Definition exactlyOne (a b c : bool) : bool :=
  (a && negb b && negb c) || (negb a && b && negb c)
  || (negb a && negb b && c).

(** A string that is one code point: one code unit, or a surrogate pair. *)
Definition isCodePoint (s : jsstring) : bool :=
  match s with
  | [_] => true
  | [c; d] => isLeadingSurrogate c && isTrailingSurrogate d
  | _ => false
  end.

(** ** Example groups *)

Definition item (k : string) (d : bool) : Item.t :=
  Item.mk (str k) (str k) d.

(** The group of the spec's scenario: items a, b and a disabled c, checkbox
    input, [defaultValue = []], no [value]; [cb] says whether a callback is
    passed. *)
Definition checkboxGroup (cb : bool) : ChoiceGroupProps :=
  {| items := [item "a" false; item "b" false; item "c" true];
     inputType := Some checkbox;
     defaultValue := Some (VArray []);
     value := None;
     onChange := cb;
     type := None;
     indeterminateCheckLabel := Some (LabelString (str "All")) |}.

(** The same items as radio buttons, with [defaultValue = dv]. *)
Definition radioGroup (dv : option TChoiceGroupValue) : ChoiceGroupProps :=
  {| items := [item "a" false; item "b" false; item "c" true];
     inputType := None;
     defaultValue := dv;
     value := None;
     onChange := true;
     type := None;
     indeterminateCheckLabel := None |}.

(** A checkbox group whose only item is disabled. *)
Definition disabledGroup : ChoiceGroupProps :=
  {| items := [item "c" true];
     inputType := Some checkbox;
     defaultValue := None;
     value := None;
     onChange := false;
     type := None;
     indeterminateCheckLabel := Some (LabelString (str "All")) |}.

(** A checkbox group controlled by its caller, who passes [v]. *)
Definition controlledGroup (v : TChoiceGroupValue) : ChoiceGroupProps :=
  {| items := [item "a" false; item "b" false; item "c" true];
     inputType := Some checkbox;
     defaultValue := None;
     value := Some v;
     onChange := true;
     type := None;
     indeterminateCheckLabel := Some (LabelString (str "All")) |}.

(** The controlled group when the caller passes both eligible keys. *)
Definition bothTicked : ChoiceGroupProps :=
  controlledGroup (VArray [str "a"; str "b"]).

(** A checkbox group given a [value] but no callback. *)
Definition valueOnlyGroup (v : TChoiceGroupValue) : ChoiceGroupProps :=
  {| items := [item "a" false; item "b" false; item "c" true];
     inputType := Some checkbox;
     defaultValue := None;
     value := Some v;
     onChange := false;
     type := None;
     indeterminateCheckLabel := None |}.

(** ** The specification's reading of two computations, to compare with the
    code *)

(** The aggregate flags as the specification gives them for a selection that
    is an array: all iff the selection has as many elements as there are
    eligible items, none iff it has no element, and exactly one of none,
    some and all. *)
Definition flagsAsSpecified (props : ChoiceGroupProps) (s : Store) : Prop :=
  ∀ a, currentValue props s = VArray a →
    (isAllSelected props s = true ↔ length a = length (enabledItems props))
    ∧ (isNoneSelected props s = true ↔ length a = 0)
    ∧ exactlyOne (isNoneSelected props s) (isSomeSelected props s)
        (isAllSelected props s) = true.

(** The seed of the state hook as the specification gives it: the default
    value whenever one is passed, else the empty array for checkboxes and
    [null] for radio buttons. *)
Definition seededAsSpecified (props : ChoiceGroupProps) : Prop :=
  match defaultValue props with
  | Some v => initialInnerValue props = v
  | None =>
      initialInnerValue props =
        if bool_decide (inputTypeOf props = checkbox) then VArray [] else VNull
  end.

(** ** The rest of the render *)

(** The four item components the group chooses from. *)
Inductive TChoiceGroupItemElement : Type :=
  | ChoiceGroupCheck
  | ChoiceGroupRadio
  | SelectorItem
  | FilterItem.

(** The [switch (type)] that picks the component every item is rendered
    with. *)
Definition ChoiceGroupItemElement (props : ChoiceGroupProps)
  : TChoiceGroupItemElement :=
  match typeOf props with
  | TypeDefault =>
      if bool_decide (inputTypeOf props = checkbox)
      then ChoiceGroupCheck else ChoiceGroupRadio
  | TypeSelector => SelectorItem
  | TypeFilter => FilterItem
  end.

Module FormHelper.
(** Modelled from the spec: [FormHelperProps] is declared in
    [form-helper/form-helper], which is not part of the sources at hand. The
    component reads one field of it, the optional [id]; the spec says the
    group id is "used to derive a default helper-text element reference". *)
Record t : Type := mk {
  id : option jsstring;
}.
End FormHelper.

(** [helper ? helper?.id ?? `${id}-helper` : undefined] *)
Definition helperId (id : jsstring) (helper : option FormHelper.t)
  : option jsstring :=
  match helper with
  | Some h => Some (default (id ++ str "-helper") (FormHelper.id h))
  | None => None
  end.

(** [`${id}-indeterminate`], the id of the aggregate checkbox. *)
Definition indeterminateId (id : jsstring) : jsstring :=
  id ++ str "-indeterminate".

(** The values a prop of the aggregate checkbox can hold: [PHandler] is the
    component's own [onIndeterminateChangeHandler], [POther n] stands for
    any other JavaScript value a caller may pass. *)
Inductive PropValue : Type :=
  | PUndefined
  | PBool (b : bool)
  | PString (s : jsstring)
  | PHandler
  | POther (n : nat).

(** The props object of the aggregate [<Check>]: [id], [value] and [name]
    first, then the spread of [restIndeterminate] (the caller's
    [indeterminateCheckProps] without [indented]), then the four props the
    component computes. In an object built this way a later entry replaces
    an earlier one with the same key. *)
Definition checkProps (id : jsstring) (props : ChoiceGroupProps)
    (rendered : Store)
    (indeterminateCheckProps : option (gmap string PropValue))
  : gmap string PropValue :=
  let restIndeterminate :=
    delete "indented" (default ∅ indeterminateCheckProps) in
  <["onChange" := PHandler]>
    (<["checked" := PBool (isAllSelected props rendered)]>
       (<["indeterminate" := PBool (isSomeSelected props rendered)]>
          (<["label" := PString (getIndeterminateLabel props rendered)]>
             (restIndeterminate
              ∪ <["name" := PString (str "indeterminate")]>
                  (<["value" := PString (str "indeterminate")]>
                     (<["id" := PString (indeterminateId id)]> ∅)))))).

(** ** Sequences of interactions *)

(** What a user can do to the group: change one item (the item calls the
    context's [onChange] with a key and its new checked state), or change
    the aggregate checkbox. *)
Inductive Interaction : Type :=
  | ItemChange (value : jsstring) (checked : bool)
  | IndeterminateChange.

Definition interact (props : ChoiceGroupProps) (i : Interaction) (s : Store)
  : Store :=
  match i with
  | ItemChange value checked => toggleItem props value checked s
  | IndeterminateChange => toggleIndeterminate props s
  end.

Definition interactAll (props : ChoiceGroupProps) (l : list Interaction)
    (s : Store) : Store :=
  foldl (λ s i, interact props i s) s l.

(** The aggregate checkbox is rendered, and so can change, only under
    [showIndeterminate]. *)
Definition canFire (props : ChoiceGroupProps) (i : Interaction) : bool :=
  match i with
  | ItemChange _ _ => true
  | IndeterminateChange => showIndeterminate props
  end.

(** A checkbox group given a string as its default value. *)
Definition stringDefaultGroup : ChoiceGroupProps :=
  {| items := [item "a" false; item "b" false; item "c" true];
     inputType := Some checkbox;
     defaultValue := Some (VString (str "a"));
     value := None;
     onChange := true;
     type := None;
     indeterminateCheckLabel := Some (LabelString (str "All")) |}.

(** * Properties *)

(** ** The string iterator *)

(** Spreading a string loses no code unit and invents none. *)
Lemma stringIterator_concat (s : jsstring) : concat (stringIterator s) = s.
Proof.
  assert (H : ∀ n (t : jsstring),
             length t ≤ n → concat (stringIterator t) = t).
  { induction n as [|n IH]; intros [|c [|d t]] Hlen; simpl in *;
      try reflexivity; try lia.
    destruct (isLeadingSurrogate c && isTrailingSurrogate d); simpl.
    - f_equal. f_equal. apply IH. lia.
    - f_equal. apply (IH (d :: t)). simpl. lia. }
  apply (H (length s)). lia.
Qed.

(** The iterator yields the string itself, once, exactly on the strings
    that are one code point. *)
Lemma stringIterator_singleton (s : jsstring) :
  stringIterator s = [s] ↔ isCodePoint s = true.
Proof.
  destruct s as [|c [|d [|e t]]]; simpl.
  - split; discriminate.
  - split; reflexivity.
  - destruct (isLeadingSurrogate c && isTrailingSurrogate d).
    + split; reflexivity.
    + split; discriminate.
  - split; [|discriminate].
    destruct (isLeadingSurrogate c && isTrailingSurrogate d).
    + destruct t as [|f t]; [discriminate|].
      destruct (isLeadingSurrogate e && isTrailingSurrogate f); discriminate.
    + discriminate.
Qed.

(** ** What a handler leaves in the store *)

Lemma toggleItem_store props value checked s :
  toggleItem props value checked s =
    let nextValue := onChangeNextValue props s value checked in
    {| innerValue :=
         if isValueControlled props None then innerValue s else nextValue;
       onChangeCalls :=
         onChangeCalls s ++ (if onChange props then [nextValue] else []) |}.
Proof.
  unfold toggleItem, exec, onChangeHandler, when, bind, callOnChange,
    setInnerValue, ret, copyArray.
  destruct s as [iv calls]; simpl.
  destruct (isValueControlled props None), (onChange props),
    (onChangeNextValue props _ value checked);
    simpl; rewrite ?app_nil_r; reflexivity.
Qed.

Lemma toggleIndeterminate_store props s :
  toggleIndeterminate props s =
    let nextValue := VArray (onIndeterminateNextValue props s) in
    {| innerValue :=
         if isValueControlled props None then innerValue s else nextValue;
       onChangeCalls :=
         onChangeCalls s ++ (if onChange props then [nextValue] else []) |}.
Proof.
  unfold toggleIndeterminate, exec, onIndeterminateChangeHandler, when, bind,
    callOnChange, setInnerValue, ret, copyArray.
  destruct s as [iv calls]; simpl.
  destruct (isValueControlled props None), (onChange props);
    simpl; rewrite ?app_nil_r; reflexivity.
Qed.

(** Both ways of asking [isValueControlled] agree: the render passes
    [props.value], the handlers pass nothing. *)
Lemma isValueControlled_default props :
  isValueControlled props (value props) = isValueControlled props None.
Proof. unfold isValueControlled. destruct (value props); reflexivity. Qed.

Lemma isValueControlled_true props :
  isValueControlled props None = true ↔
  onChange props = true ∧ value props ≠ None.
Proof.
  unfold isValueControlled.
  rewrite andb_true_iff, bool_decide_eq_true. reflexivity.
Qed.

Lemma currentValue_uncontrolled props s :
  isValueControlled props None = false → currentValue props s = innerValue s.
Proof.
  intros H. unfold currentValue.
  rewrite isValueControlled_default, H. reflexivity.
Qed.

Lemma currentValue_controlled props s v :
  onChange props = true → value props = Some v → currentValue props s = v.
Proof.
  intros Hcb Hv. unfold currentValue, isValueControlled.
  rewrite Hcb, Hv. reflexivity.
Qed.

(** ** The per-item handler in checkbox mode *)

Lemma onChangeNextValue_checkbox props s a value checked :
  inputTypeOf props = checkbox →
  currentValue props s = VArray a →
  onChangeNextValue props s value checked =
    if checked then VArray (a ++ stringIterator value)
    else VArray (filter (λ item, item ≠ value) a).
Proof.
  intros Hty Hcur. unfold onChangeNextValue.
  rewrite Hcur, bool_decide_eq_true_2 by assumption. reflexivity.
Qed.

(** Ticking an item appends the key as one element exactly when the key is a
    single code point. *)
Lemma onChangeNextValue_checked_appends props s a value :
  inputTypeOf props = checkbox →
  currentValue props s = VArray a →
  onChangeNextValue props s value true = VArray (a ++ [value]) ↔
  isCodePoint value = true.
Proof.
  intros Hty Hcur.
  rewrite (onChangeNextValue_checkbox _ _ a) by assumption.
  rewrite <- stringIterator_singleton. split.
  - intros [= H]. exact (app_inv_head _ _ _ H).
  - intros ->. reflexivity.
Qed.

Lemma filter_ne_notin (value : jsstring) (a : list jsstring) :
  value ∉ a → filter (λ item, item ≠ value) a = a.
Proof.
  induction a as [|x a IH]; intros Hnotin; [reflexivity|].
  apply not_elem_of_cons in Hnotin as [Hne Hnotin].
  rewrite filter_cons_True by congruence. f_equal. auto.
Qed.

(** For a key that is one code point and not yet selected, ticking and then
    unticking an item of an uncontrolled checkbox group restores the
    selection. *)
Lemma toggle_on_off_code_point props s a value :
  inputTypeOf props = checkbox →
  isValueControlled props None = false →
  innerValue s = VArray a →
  value ∉ a →
  isCodePoint value = true →
  innerValue (toggleItem props value false (toggleItem props value true s))
  = VArray a.
Proof.
  intros Hty Hunc Hs Hnotin Hcp.
  rewrite !toggleItem_store; simpl. rewrite Hunc.
  rewrite (onChangeNextValue_checkbox _ _ (a ++ [value])); [|assumption|].
  - rewrite list.filter_app, filter_ne_notin by assumption.
    rewrite filter_cons_False by (intros H; apply H; reflexivity).
    rewrite filter_nil, app_nil_r. reflexivity.
  - rewrite currentValue_uncontrolled by assumption. simpl.
    rewrite (onChangeNextValue_checkbox _ _ a);
      [|assumption|rewrite currentValue_uncontrolled; assumption].
    apply stringIterator_singleton in Hcp. rewrite Hcp. reflexivity.
Qed.

(** C1 (defect): in checkbox mode [onChangeHandler(key, true)] does not
    append the key as one element. The handler spreads the key
    ([[...nextValue, ...value]]), so each code point of the key becomes an
    element of its own: ticking the item "ab" of a group with nothing
    selected gives the selection ["a", "b"], not ["ab"], and that selection
    is what is stored and what [onChange] receives. *)
Theorem onChangeHandler_checked_spreads_key :
  currentValue (checkboxGroup true) (mount (checkboxGroup true)) = VArray []
  ∧ onChangeNextValue (checkboxGroup true) (mount (checkboxGroup true))
      (str "ab") true
    = VArray [str "a"; str "b"]
  ∧ onChangeNextValue (checkboxGroup true) (mount (checkboxGroup true))
      (str "ab") true
    ≠ VArray ([] ++ [str "ab"])
  ∧ toggleItem (checkboxGroup true) (str "ab") true
      (mount (checkboxGroup true))
    = {| innerValue := VArray [str "a"; str "b"];
         onChangeCalls := [VArray [str "a"; str "b"]] |}.
Proof. repeat split; try reflexivity. discriminate. Qed.

(** C2 (defect): ticking and then unticking an item of a checkbox group does
    not restore the selection when the key has more than one code point.
    With nothing selected, ticking "ab" stores ["a", "b"]; unticking "ab"
    removes the elements equal to "ab", of which there are none, so the
    selection stays ["a", "b"] instead of returning to the empty one. *)
Theorem toggle_on_off_keeps_spread_key :
  innerValue (mount (checkboxGroup false)) = VArray []
  ∧ (str "ab" ∉ ([] : list jsstring))
  ∧ innerValue
      (toggleItem (checkboxGroup false) (str "ab") false
         (toggleItem (checkboxGroup false) (str "ab") true
            (mount (checkboxGroup false))))
    = VArray [str "a"; str "b"]
  ∧ innerValue
      (toggleItem (checkboxGroup false) (str "ab") false
         (toggleItem (checkboxGroup false) (str "ab") true
            (mount (checkboxGroup false))))
    ≠ innerValue (mount (checkboxGroup false)).
Proof.
  split; [reflexivity|]. split; [apply not_elem_of_nil|].
  split; [reflexivity|]. discriminate.
Qed.

(** C10: in checkbox mode, with an array as the current selection,
    [onChangeHandler(key, false)] computes the selection without any element
    equal to the key: the key is not a member of the next value however often
    it occurred, and the other elements stay, in their order. *)
Theorem onChangeHandler_unchecked_removes_all props s a value :
  inputTypeOf props = checkbox →
  currentValue props s = VArray a →
  ∃ a', onChangeNextValue props s value false = VArray a'
        ∧ a' = filter (λ item, item ≠ value) a
        ∧ (value ∉ a')
        ∧ (∀ k, k ≠ value → (k ∈ a' ↔ k ∈ a))
        ∧ a' `sublist_of` a.
Proof.
  intros Hty Hcur. eexists. split.
  { rewrite (onChangeNextValue_checkbox _ _ a) by assumption. reflexivity. }
  split; [reflexivity|]. split; [|split].
  - rewrite list_elem_of_filter. intros [Hne _]. apply Hne. reflexivity.
  - intros k Hk. rewrite list_elem_of_filter. tauto.
  - apply sublist_filter.
Qed.

Lemma onChangeHandler_unchecked_removes_all_witness :
  ∃ a', onChangeNextValue (controlledGroup (VArray [str "a"; str "b"; str "a"]))
          (mount (controlledGroup (VArray [str "a"; str "b"; str "a"])))
          (str "a") false = VArray a'
        ∧ a' = filter (λ item, item ≠ str "a") [str "a"; str "b"; str "a"]
        ∧ (str "a" ∉ a')
        ∧ (∀ k, k ≠ str "a" → (k ∈ a' ↔ k ∈ [str "a"; str "b"; str "a"]))
        ∧ a' `sublist_of` [str "a"; str "b"; str "a"].
Proof.
  apply (onChangeHandler_unchecked_removes_all
           (controlledGroup (VArray [str "a"; str "b"; str "a"]))
           (mount (controlledGroup (VArray [str "a"; str "b"; str "a"])))
           [str "a"; str "b"; str "a"] (str "a")); reflexivity.
Defined.

(** ** The aggregate flags *)

Lemma exactlyOne_some (n a : bool) :
  exactlyOne n (negb n && negb a) a = negb (n && a).
Proof. destruct n, a; reflexivity. Qed.

(** Whatever the selection is, at least one flag is set, "some" excludes the
    other two, and the label function is asked about "all" when both "none"
    and "all" are set. *)
Lemma flags_cover props s :
  exactlyOne (isNoneSelected props s) (isSomeSelected props s)
    (isAllSelected props s)
  = negb (isNoneSelected props s && isAllSelected props s).
Proof. apply exactlyOne_some. Qed.

Lemma isNoneSelected_array props s a :
  currentValue props s = VArray a →
  isNoneSelected props s = true ↔ length a = 0.
Proof.
  intros Hcur. unfold isNoneSelected. rewrite Hcur, bool_decide_eq_true.
  simpl. split; [intros [= H]; exact H | intros ->; reflexivity].
Qed.

Lemma isAllSelected_array props s a :
  currentValue props s = VArray a →
  isAllSelected props s = true ↔ length a = length (enabledItems props).
Proof.
  intros Hcur. unfold isAllSelected. rewrite Hcur, bool_decide_eq_true.
  simpl. split; [intros [= H]; exact H | intros ->; reflexivity].
Qed.

(** An uncontrolled checkbox group that mounts with an array keeps an array
    through every interaction. *)
Lemma reachable_checkbox_array props s :
  inputTypeOf props = checkbox →
  isArray (initialInnerValue props) = true →
  reachable props s →
  isArray (innerValue s) = true.
Proof.
  intros Hty Hinit Hreach.
  induction Hreach as [|s value checked _ IH|s _ IH].
  - exact Hinit.
  - rewrite toggleItem_store; simpl.
    destruct (isValueControlled props None) eqn:Hc; [exact IH|].
    destruct (innerValue s) as [| |a] eqn:Hs; try discriminate.
    rewrite (onChangeNextValue_checkbox _ _ a);
      [|assumption|rewrite currentValue_uncontrolled; assumption].
    destruct checked; reflexivity.
  - rewrite toggleIndeterminate_store; simpl.
    destruct (isValueControlled props None); [exact IH|reflexivity].
Qed.

(** The hook of a checkbox group mounts with an array unless a non-empty
    string is passed as the default value. *)
Lemma initialInnerValue_checkbox_array props :
  inputTypeOf props = checkbox →
  (∀ k, defaultValue props = Some (VString k) → k = []) →
  isArray (initialInnerValue props) = true.
Proof.
  intros Hty Hdv. unfold initialInnerValue.
  rewrite bool_decide_eq_true_2 by assumption.
  destruct (defaultValue props) as [[|k|a]|]; simpl; try reflexivity.
  rewrite (Hdv k eq_refl). reflexivity.
Qed.

(** C3 (as stated, refuted): a checkbox group whose only item is disabled
    mounts with the empty selection and no eligible item; "none" and "all"
    are then both set, so the flags are not exactly one. *)
Lemma flags_not_exclusive_without_eligible_items :
  inputTypeOf disabledGroup = checkbox
  ∧ reachable disabledGroup (mount disabledGroup)
  ∧ isNoneSelected disabledGroup (mount disabledGroup) = true
  ∧ isAllSelected disabledGroup (mount disabledGroup) = true
  ∧ ¬ flagsAsSpecified disabledGroup (mount disabledGroup).
Proof.
  split; [reflexivity|]. split; [constructor|].
  split; [reflexivity|]. split; [reflexivity|].
  intros H. destruct (H [] eq_refl) as (_ & _ & Hone). discriminate Hone.
Qed.

(** C3 (amended): for a selection that is an array, [isAllSelected] holds
    iff the selection has as many elements as there are non-disabled items,
    [isNoneSelected] holds iff it has no element, and exactly one of
    none/some/all holds unless the selection is empty and no item is
    eligible; in that case none and all both hold, some does not, and the
    state the label function is given is "all". *)
Theorem derived_flags_of_array props s a :
  currentValue props s = VArray a →
  (isAllSelected props s = true ↔ length a = length (enabledItems props))
  ∧ (isNoneSelected props s = true ↔ length a = 0)
  ∧ (exactlyOne (isNoneSelected props s) (isSomeSelected props s)
       (isAllSelected props s) = true
     ↔ ¬ (length a = 0 ∧ length (enabledItems props) = 0))
  ∧ (length a = 0 → length (enabledItems props) = 0 →
     isNoneSelected props s = true ∧ isAllSelected props s = true
     ∧ isSomeSelected props s = false
     ∧ indeterminateState props s = StateAll
     ∧ (∀ f, indeterminateCheckLabel props = Some (LabelFunction f) →
             getIndeterminateLabel props s = f StateAll)).
Proof.
  intros Hcur.
  pose proof (isAllSelected_array props s a Hcur) as Hall.
  pose proof (isNoneSelected_array props s a Hcur) as Hnone.
  split; [exact Hall|]. split; [exact Hnone|]. split.
  - rewrite flags_cover, negb_true_iff, andb_false_iff.
    rewrite <- !not_true_iff_false, Hall, Hnone. split.
    + intros [H|H] [H0 He]; apply H; congruence.
    + intros H. destruct (decide (length a = 0)) as [H0|H0]; [|auto].
      right. intros He. apply H. split; congruence.
  - intros H0 He.
    unfold getIndeterminateLabel, indeterminateState, isSomeSelected.
    assert (isNoneSelected props s = true) as -> by (apply Hnone; exact H0).
    assert (isAllSelected props s = true) as -> by (apply Hall; congruence).
    repeat split. intros f ->. reflexivity.
Qed.

(** The spec's scenario after ticking a and b, two of two eligible items;
    and a group without eligible items at mount, where the label function
    is asked about "all". *)
Lemma derived_flags_of_array_witness :
  currentValue bothTicked (mount bothTicked) = VArray [str "a"; str "b"]
  ∧ isAllSelected bothTicked (mount bothTicked) = true
  ∧ exactlyOne (isNoneSelected bothTicked (mount bothTicked))
      (isSomeSelected bothTicked (mount bothTicked))
      (isAllSelected bothTicked (mount bothTicked)) = true
  ∧ currentValue disabledGroup (mount disabledGroup) = VArray []
  ∧ isNoneSelected disabledGroup (mount disabledGroup) = true
  ∧ indeterminateState disabledGroup (mount disabledGroup) = StateAll.
Proof.
  split; [reflexivity|].
  destruct (derived_flags_of_array bothTicked (mount bothTicked)
              [str "a"; str "b"] eq_refl) as (Hall & _ & Hone & _).
  split; [apply Hall; reflexivity|].
  split; [apply Hone; intros [H _]; discriminate H|].
  split; [reflexivity|].
  destruct (derived_flags_of_array disabledGroup (mount disabledGroup)
              [] eq_refl) as (_ & _ & _ & Hboth).
  destruct (Hboth eq_refl eq_refl) as (Hnone & _ & _ & Hstate & _).
  split; [exact Hnone|exact Hstate].
Defined.

(** With no length to read, a [null] selection sets neither "none" nor
    "all". *)
Lemma flags_of_null props s :
  currentValue props s = VNull →
  isNoneSelected props s = false ∧ isAllSelected props s = false
  ∧ isSomeSelected props s = true ∧ indeterminateState props s = StateSome.
Proof.
  intros Hcur.
  unfold indeterminateState, isSomeSelected, isNoneSelected, isAllSelected.
  rewrite Hcur. simpl. auto.
Qed.

(** C7 (as stated, refuted): a radio group without a default value mounts
    with the selection [null], and [isNoneSelected] is false for it, while
    it is true for the empty array a checkbox group mounts with. *)
Lemma isNoneSelected_false_on_null :
  inputTypeOf (radioGroup None) = radio
  ∧ currentValue (radioGroup None) (mount (radioGroup None)) = VNull
  ∧ isNoneSelected (radioGroup None) (mount (radioGroup None)) = false
  ∧ currentValue (checkboxGroup true) (mount (checkboxGroup true)) = VArray []
  ∧ isNoneSelected (checkboxGroup true) (mount (checkboxGroup true)) = true.
Proof. repeat split. Qed.

(** C7 (amended): the derived flags read the selection's [length] through
    optional chaining and compare it with [===]. [isNoneSelected] holds
    exactly for the empty array and the empty string, in either mode; on a
    [null] selection the length is [undefined], so [isNoneSelected] and
    [isAllSelected] are both false and [isSomeSelected] is true. *)
Theorem isNoneSelected_iff_empty props s :
  (isNoneSelected props s = true
   ↔ currentValue props s = VArray [] ∨ currentValue props s = VString [])
  ∧ (currentValue props s = VNull →
     isNoneSelected props s = false ∧ isAllSelected props s = false
     ∧ isSomeSelected props s = true).
Proof.
  split.
  - unfold isNoneSelected. rewrite bool_decide_eq_true.
    destruct (currentValue props s) as [|k|a]; simpl.
    + split; [discriminate|]. intros [H|H]; discriminate H.
    + split.
      * intros [= H]. apply nil_length_inv in H. subst k. auto.
      * intros [H|[= ->]]; [discriminate H|reflexivity].
    + split.
      * intros [= H]. apply nil_length_inv in H. subst a. auto.
      * intros [[= ->]|H]; [reflexivity|discriminate H].
  - intros Hcur. destruct (flags_of_null props s Hcur) as (H1 & H2 & H3 & _).
    auto.
Qed.

(** ** The aggregate handler *)

Lemma elem_of_enabled_values props k :
  k ∈ Item.value <$> enabledItems props ↔
  ∃ item, item ∈ items props ∧ Item.disabled item = false
          ∧ Item.value item = k.
Proof.
  unfold enabledItems. rewrite list_elem_of_fmap. split.
  - intros (item & -> & Hin). apply list_elem_of_filter in Hin as [Hd Hin].
    eauto.
  - intros (item & Hin & Hd & <-). exists item. split; [reflexivity|].
    apply list_elem_of_filter. auto.
Qed.

(** C4: when the aggregate toggle fires, the next value is the empty
    selection if the state is "all", and otherwise, whatever is selected,
    the values of the non-disabled items in their order, a key being among
    them exactly when a non-disabled item carries it. This value is
    what [onChange] receives and, in an uncontrolled group, what replaces the
    stored selection. *)
Theorem onIndeterminateChangeHandler_next props s :
  (isAllSelected props s = true → onIndeterminateNextValue props s = [])
  ∧ (isAllSelected props s = false →
     onIndeterminateNextValue props s
     = Item.value <$> filter (λ item, Item.disabled item = false) (items props))
  ∧ (∀ k, k ∈ Item.value
              <$> filter (λ item, Item.disabled item = false) (items props)
          ↔ ∃ item, item ∈ items props ∧ Item.disabled item = false
                    ∧ Item.value item = k)
  ∧ onChangeCalls (toggleIndeterminate props s)
    = onChangeCalls s
      ++ (if onChange props
          then [VArray (onIndeterminateNextValue props s)] else [])
  ∧ (isValueControlled props None = false →
     innerValue (toggleIndeterminate props s)
     = VArray (onIndeterminateNextValue props s)).
Proof.
  split; [|split; [|split; [|split]]].
  - unfold onIndeterminateNextValue. intros ->. reflexivity.
  - unfold onIndeterminateNextValue. intros ->. reflexivity.
  - apply elem_of_enabled_values.
  - rewrite toggleIndeterminate_store. reflexivity.
  - intros Hunc. rewrite toggleIndeterminate_store. simpl. rewrite Hunc.
    reflexivity.
Qed.

(** The spec's scenario: from "none" and from "some" the toggle stores
    [a, b], the disabled c staying out; from "all" it stores the empty
    array. *)
Lemma onIndeterminateChangeHandler_next_witness :
  toggleIndeterminate (checkboxGroup true) (mount (checkboxGroup true))
  = {| innerValue := VArray [str "a"; str "b"];
       onChangeCalls := [VArray [str "a"; str "b"]] |}
  ∧ innerValue
      (toggleIndeterminate (checkboxGroup true)
         (toggleItem (checkboxGroup true) (str "b") true
            (mount (checkboxGroup true))))
    = VArray [str "a"; str "b"]
  ∧ innerValue
      (toggleIndeterminate (checkboxGroup true)
         (toggleIndeterminate (checkboxGroup true)
            (mount (checkboxGroup true))))
    = VArray []
  ∧ innerValue
      (toggleIndeterminate (checkboxGroup true)
         (toggleItem (checkboxGroup true) (str "b") true
            (mount (checkboxGroup true))))
    = VArray (onIndeterminateNextValue (checkboxGroup true)
                (toggleItem (checkboxGroup true) (str "b") true
                   (mount (checkboxGroup true)))).
Proof.
  split; [reflexivity|]. split; [reflexivity|]. split; [reflexivity|].
  apply (onIndeterminateChangeHandler_next (checkboxGroup true)
           (toggleItem (checkboxGroup true) (str "b") true
              (mount (checkboxGroup true)))).
  reflexivity.
Defined.

(** ** Radio mode *)

Lemma onChangeNextValue_radio props s value checked :
  inputTypeOf props = radio →
  onChangeNextValue props s value checked = VString value.
Proof.
  intros Hty. unfold onChangeNextValue.
  rewrite bool_decide_eq_false_2 by (rewrite Hty; discriminate).
  reflexivity.
Qed.

(** C5: in radio mode [onChangeHandler(key, checked)] makes the next
    selection the key alone, whatever [checked] and the current selection
    are; selecting b after a leaves b only in an uncontrolled group, and the
    callback, when there is one, is told a and then b. *)
Theorem onChangeHandler_radio_replaces props :
  inputTypeOf props = radio →
  (∀ s key checked, onChangeNextValue props s key checked = VString key)
  ∧ (∀ s a b checkedA checkedB,
       isValueControlled props None = false →
       innerValue
         (toggleItem props b checkedB (toggleItem props a checkedA s))
       = VString b)
  ∧ (∀ s a b checkedA checkedB,
       onChange props = true →
       onChangeCalls
         (toggleItem props b checkedB (toggleItem props a checkedA s))
       = onChangeCalls s ++ [VString a; VString b]).
Proof.
  intros Hty. split; [|split].
  - intros. apply onChangeNextValue_radio. exact Hty.
  - intros s a b ca cb Hunc. rewrite toggleItem_store. simpl.
    rewrite Hunc. apply onChangeNextValue_radio. exact Hty.
  - intros s a b ca cb Hcb. rewrite !toggleItem_store. simpl.
    rewrite Hcb, !onChangeNextValue_radio by exact Hty.
    rewrite <- app_assoc. reflexivity.
Qed.

Lemma onChangeHandler_radio_replaces_witness :
  onChangeNextValue (radioGroup None) (mount (radioGroup None))
    (str "a") false = VString (str "a")
  ∧ toggleItem (radioGroup None) (str "b") true
      (toggleItem (radioGroup None) (str "a") true (mount (radioGroup None)))
    = {| innerValue := VString (str "b");
         onChangeCalls := [VString (str "a"); VString (str "b")] |}.
Proof.
  destruct (onChangeHandler_radio_replaces (radioGroup None) eq_refl)
    as (Hnext & _ & _).
  split; [apply Hnext|reflexivity].
Defined.

(** ** Controlled and uncontrolled groups *)

(** C6: in a controlled group (a callback and a value that is not
    [undefined]) either handler leaves the state hook as it was and makes
    one call to [onChange], with the next value it computed from the value
    the caller passed. *)
Theorem controlled_handlers_only_notify props s :
  onChange props = true →
  value props ≠ None →
  value props = Some (currentValue props s)
  ∧ (∀ key checked,
       innerValue (toggleItem props key checked s) = innerValue s
       ∧ onChangeCalls (toggleItem props key checked s)
         = onChangeCalls s ++ [onChangeNextValue props s key checked])
  ∧ innerValue (toggleIndeterminate props s) = innerValue s
  ∧ onChangeCalls (toggleIndeterminate props s)
    = onChangeCalls s ++ [VArray (onIndeterminateNextValue props s)].
Proof.
  intros Hcb Hv.
  assert (Hc : isValueControlled props None = true)
    by (apply isValueControlled_true; auto).
  split; [|split; [|split]].
  - destruct (value props) as [v|] eqn:Hval; [|congruence].
    rewrite (currentValue_controlled props s v) by assumption. reflexivity.
  - intros key checked. rewrite toggleItem_store. simpl.
    rewrite Hc, Hcb. auto.
  - rewrite toggleIndeterminate_store. simpl. rewrite Hc. reflexivity.
  - rewrite toggleIndeterminate_store. simpl. rewrite Hcb. reflexivity.
Qed.

Lemma controlled_handlers_only_notify_witness :
  toggleItem bothTicked (str "b") false (mount bothTicked)
  = {| innerValue := VArray []; onChangeCalls := [VArray [str "a"]] |}
  ∧ innerValue (toggleIndeterminate bothTicked (mount bothTicked))
    = innerValue (mount bothTicked)
  ∧ onChangeCalls (toggleIndeterminate bothTicked (mount bothTicked))
    = [VArray []].
Proof.
  split; [reflexivity|].
  assert (Hv : value bothTicked ≠ None) by discriminate.
  destruct (controlled_handlers_only_notify bothTicked (mount bothTicked)
              eq_refl Hv) as (_ & _ & Hinner & Hcalls).
  split; [exact Hinner|exact Hcalls].
Defined.

(** C8: a group given a callback but no value, or a value but no callback,
    is uncontrolled: the render reads the state hook, each handler stores
    the next value it computed there, and the callback, when there is one,
    receives that same value, once. *)
Theorem half_controlled_is_uncontrolled props s :
  (onChange props = true ∧ value props = None)
  ∨ (onChange props = false ∧ value props ≠ None) →
  isValueControlled props (value props) = false
  ∧ currentValue props s = innerValue s
  ∧ (∀ key checked,
       innerValue (toggleItem props key checked s)
       = onChangeNextValue props s key checked
       ∧ onChangeCalls (toggleItem props key checked s)
         = onChangeCalls s
           ++ (if onChange props
               then [onChangeNextValue props s key checked] else []))
  ∧ innerValue (toggleIndeterminate props s)
    = VArray (onIndeterminateNextValue props s)
  ∧ onChangeCalls (toggleIndeterminate props s)
    = onChangeCalls s
      ++ (if onChange props
          then [VArray (onIndeterminateNextValue props s)] else []).
Proof.
  intros Hhalf.
  assert (Hunc : isValueControlled props None = false).
  { apply not_true_iff_false. rewrite isValueControlled_true.
    destruct Hhalf as [[Hcb Hv]|[Hcb Hv]]; intros [Hcb' Hv']; congruence. }
  split; [|split; [|split; [|split]]].
  - rewrite isValueControlled_default. exact Hunc.
  - apply currentValue_uncontrolled. exact Hunc.
  - intros key checked. rewrite toggleItem_store. simpl. rewrite Hunc. auto.
  - rewrite toggleIndeterminate_store. simpl. rewrite Hunc. reflexivity.
  - rewrite toggleIndeterminate_store. reflexivity.
Qed.

(** A callback without a value, and a value without a callback. *)
Lemma half_controlled_is_uncontrolled_witness :
  toggleItem (radioGroup None) (str "a") true (mount (radioGroup None))
  = {| innerValue := VString (str "a");
       onChangeCalls := [VString (str "a")] |}
  ∧ toggleIndeterminate (valueOnlyGroup (VArray [str "a"]))
      (mount (valueOnlyGroup (VArray [str "a"])))
    = {| innerValue := VArray [str "a"; str "b"]; onChangeCalls := [] |}
  ∧ innerValue
      (toggleItem (valueOnlyGroup (VArray [str "a"])) (str "b") true
         (mount (valueOnlyGroup (VArray [str "a"]))))
    = onChangeNextValue (valueOnlyGroup (VArray [str "a"]))
        (mount (valueOnlyGroup (VArray [str "a"]))) (str "b") true.
Proof.
  split; [reflexivity|]. split; [reflexivity|].
  assert (Hhalf : (onChange (valueOnlyGroup (VArray [str "a"])) = true
                   ∧ value (valueOnlyGroup (VArray [str "a"])) = None)
                  ∨ (onChange (valueOnlyGroup (VArray [str "a"])) = false
                     ∧ value (valueOnlyGroup (VArray [str "a"])) ≠ None))
    by (right; split; [reflexivity|discriminate]).
  destruct (half_controlled_is_uncontrolled
              (valueOnlyGroup (VArray [str "a"]))
              (mount (valueOnlyGroup (VArray [str "a"]))) Hhalf)
    as (_ & _ & Hitem & _).
  apply Hitem.
Defined.

(** ** The seed of the state hook *)

(** C9 (as stated, refuted): a radio group given the empty string as its
    default value mounts with [null], not with the empty string. *)
Lemma initialInnerValue_drops_empty_string :
  defaultValue (radioGroup (Some (VString []))) = Some (VString [])
  ∧ initialInnerValue (radioGroup (Some (VString []))) = VNull
  ∧ ¬ seededAsSpecified (radioGroup (Some (VString []))).
Proof.
  split; [reflexivity|]. split; [reflexivity|].
  unfold seededAsSpecified. simpl. discriminate.
Qed.

(** C9 (amended): the state hook is seeded from [defaultValue] whenever
    [defaultValue] is truthy, that is an array or a non-empty string;
    when it is [undefined], [null] or the empty string, the seed is the
    empty array in checkbox mode and [null] in radio mode. *)
Theorem initialInnerValue_seed props :
  (∀ a, defaultValue props = Some (VArray a) →
        initialInnerValue props = VArray a)
  ∧ (∀ k, defaultValue props = Some (VString k) → k ≠ [] →
          initialInnerValue props = VString k)
  ∧ (defaultValue props = None ∨ defaultValue props = Some VNull
     ∨ defaultValue props = Some (VString []) →
     (inputTypeOf props = checkbox → initialInnerValue props = VArray [])
     ∧ (inputTypeOf props = radio → initialInnerValue props = VNull)).
Proof.
  unfold initialInnerValue. split; [|split].
  - intros a ->. reflexivity.
  - intros k -> Hk. simpl. rewrite bool_decide_eq_true_2 by exact Hk.
    reflexivity.
  - intros Hfalsy.
    assert (truthy (defaultValue props) = false) as ->
      by (destruct Hfalsy as [->|[->| ->]]; reflexivity).
    split; intros ->; reflexivity.
Qed.

Lemma initialInnerValue_seed_witness :
  initialInnerValue (checkboxGroup true) = VArray []
  ∧ initialInnerValue (radioGroup (Some (VString (str "a"))))
    = VString (str "a")
  ∧ initialInnerValue disabledGroup = VArray []
  ∧ initialInnerValue (radioGroup (Some VNull)) = VNull.
Proof.
  split; [|split; [|split]].
  - destruct (initialInnerValue_seed (checkboxGroup true)) as (H & _ & _).
    apply H. reflexivity.
  - destruct (initialInnerValue_seed (radioGroup (Some (VString (str "a")))))
      as (_ & H & _).
    apply H; [reflexivity|discriminate].
  - destruct (initialInnerValue_seed disabledGroup) as (_ & _ & H).
    apply H; [left; reflexivity|reflexivity].
  - destruct (initialInnerValue_seed (radioGroup (Some VNull)))
      as (_ & _ & H).
    apply H; [right; left; reflexivity|reflexivity].
Defined.

(** * Further properties of the component *)

(** ** The label of the aggregate checkbox *)

(** X1: the state handed to the label function agrees with what the
    aggregate checkbox shows: it is "some" exactly when the checkbox is
    rendered indeterminate, "all" exactly when it is rendered checked, and
    "none" exactly when none is selected and not all; a string label is
    used as it is. *)
Theorem indeterminateState_matches_flags props s :
  (indeterminateState props s = StateSome ↔ isSomeSelected props s = true)
  ∧ (indeterminateState props s = StateAll ↔ isAllSelected props s = true)
  ∧ (indeterminateState props s = StateNone
     ↔ isNoneSelected props s = true ∧ isAllSelected props s = false)
  ∧ (∀ f, indeterminateCheckLabel props = Some (LabelFunction f) →
          getIndeterminateLabel props s = f (indeterminateState props s))
  ∧ (∀ k, indeterminateCheckLabel props = Some (LabelString k) →
          getIndeterminateLabel props s = k).
Proof.
  unfold indeterminateState, isSomeSelected, getIndeterminateLabel.
  split; [|split; [|split; [|split]]].
  - destruct (isAllSelected props s), (isNoneSelected props s); simpl;
      split; (discriminate || reflexivity).
  - destruct (isAllSelected props s), (isNoneSelected props s); simpl;
      split; (discriminate || reflexivity).
  - destruct (isAllSelected props s), (isNoneSelected props s); simpl;
      split; try discriminate; try (intros [? ?]; discriminate); auto.
  - intros f ->. reflexivity.
  - intros k ->. reflexivity.
Qed.

(** ** Which item component goes with the aggregate checkbox *)

(** X2: the aggregate checkbox is rendered exactly when a truthy label is
    given and the items are rendered as [ChoiceGroupCheck]; radio, selector
    and filter items never come with it, and a selector or filter group
    picks its item component whatever the input type is. *)
Theorem showIndeterminate_iff_check_items props :
  (showIndeterminate props = true
   ↔ truthyLabel (indeterminateCheckLabel props) = true
     ∧ ChoiceGroupItemElement props = ChoiceGroupCheck)
  ∧ (ChoiceGroupItemElement props = SelectorItem ↔ typeOf props = TypeSelector)
  ∧ (ChoiceGroupItemElement props = FilterItem ↔ typeOf props = TypeFilter)
  ∧ (ChoiceGroupItemElement props = ChoiceGroupRadio
     ↔ typeOf props = TypeDefault ∧ inputTypeOf props = radio).
Proof.
  unfold showIndeterminate, ChoiceGroupItemElement.
  destruct (truthyLabel _), (typeOf props), (inputTypeOf props); simpl;
    intuition (try discriminate; try reflexivity).
Qed.

(** ** What stays true over every interaction *)

Lemma reachable_interactAll props s :
  reachable props s ↔ ∃ l, s = interactAll props l (mount props).
Proof.
  split.
  - induction 1 as [|s value checked _ [l ->]|s _ [l ->]].
    + exists []. reflexivity.
    + exists (l ++ [ItemChange value checked]).
      unfold interactAll. rewrite foldl_app. reflexivity.
    + exists (l ++ [IndeterminateChange]).
      unfold interactAll. rewrite foldl_app. reflexivity.
  - intros [l ->]. induction l as [|i l IH] using rev_ind.
    + constructor.
    + unfold interactAll. rewrite foldl_app. simpl.
      destruct i; constructor; exact IH.
Qed.

(** X3: a checkbox group whose default value is not a non-empty string
    holds an array in its state hook after any sequence of item and
    aggregate changes. *)
Theorem checkbox_selection_stays_array props s :
  inputTypeOf props = checkbox →
  (∀ k, defaultValue props = Some (VString k) → k = []) →
  reachable props s →
  ∃ a, innerValue s = VArray a.
Proof.
  intros Hty Hdv Hreach.
  pose proof (reachable_checkbox_array props s Hty
                (initialInnerValue_checkbox_array props Hty Hdv) Hreach) as H.
  destruct (innerValue s) as [| |a]; try discriminate. eauto.
Qed.

Lemma checkbox_selection_stays_array_witness :
  ∃ a, innerValue
         (toggleItem (checkboxGroup true) (str "a") false
            (toggleIndeterminate (checkboxGroup true)
               (mount (checkboxGroup true))))
       = VArray a.
Proof.
  apply (checkbox_selection_stays_array (checkboxGroup true)).
  - reflexivity.
  - intros k [=].
  - do 2 constructor. constructor.
Defined.

(** X4: in an uncontrolled group that has a callback, after any sequence of
    interactions the selection held in the state hook, which is the one the
    next render shows, is the argument of the latest call to [onChange];
    before the first interaction no call has been made. *)
Theorem uncontrolled_state_is_last_call props s :
  onChange props = true →
  value props = None →
  reachable props s →
  currentValue props s = innerValue s
  ∧ (s = mount props ∨ last (onChangeCalls s) = Some (innerValue s)).
Proof.
  intros Hcb Hv Hreach.
  assert (Hunc : isValueControlled props None = false).
  { unfold isValueControlled. rewrite Hcb, Hv. reflexivity. }
  split; [apply currentValue_uncontrolled; exact Hunc|].
  destruct Hreach as [|s value checked _|s _]; [left; reflexivity| |]; right.
  - rewrite toggleItem_store. simpl. rewrite Hunc, Hcb. apply last_snoc.
  - rewrite toggleIndeterminate_store. simpl. rewrite Hunc, Hcb.
    apply last_snoc.
Qed.

Lemma uncontrolled_state_is_last_call_witness :
  currentValue (radioGroup None)
    (toggleItem (radioGroup None) (str "b") true (mount (radioGroup None)))
  = VString (str "b")
  ∧ last (onChangeCalls
            (toggleItem (radioGroup None) (str "b") true
               (mount (radioGroup None))))
    = Some (VString (str "b")).
Proof.
  destruct (uncontrolled_state_is_last_call (radioGroup None)
              (toggleItem (radioGroup None) (str "b") true
                 (mount (radioGroup None))) eq_refl eq_refl)
    as [Hcur [Hmount|Hlast]].
  - do 2 constructor.
  - discriminate Hmount.
  - split; [exact Hcur|exact Hlast].
Defined.

Lemma controlled_innerValue_seed props s :
  isValueControlled props None = true →
  reachable props s →
  innerValue s = initialInnerValue props.
Proof.
  intros Hc Hreach.
  induction Hreach as [|s value checked _ IH|s _ IH].
  - reflexivity.
  - rewrite toggleItem_store. simpl. rewrite Hc. exact IH.
  - rewrite toggleIndeterminate_store. simpl. rewrite Hc. exact IH.
Qed.

(** X5: in a controlled group the state hook keeps the value it was seeded
    with over every interaction, and every render shows the value the
    caller passes, not the hook. *)
Theorem controlled_state_never_changes props s v :
  onChange props = true →
  value props = Some v →
  reachable props s →
  innerValue s = initialInnerValue props ∧ currentValue props s = v.
Proof.
  intros Hcb Hv Hreach.
  split; [|apply currentValue_controlled; assumption].
  apply controlled_innerValue_seed; [|exact Hreach].
  unfold isValueControlled. rewrite Hcb, Hv. reflexivity.
Qed.

Lemma controlled_state_never_changes_witness :
  innerValue
    (toggleIndeterminate bothTicked
       (toggleItem bothTicked (str "a") false (mount bothTicked)))
  = initialInnerValue bothTicked
  ∧ currentValue bothTicked
      (toggleIndeterminate bothTicked
         (toggleItem bothTicked (str "a") false (mount bothTicked)))
    = VArray [str "a"; str "b"].
Proof.
  apply (controlled_state_never_changes bothTicked); try reflexivity.
  do 2 constructor. constructor.
Defined.

(** X6: over any sequence of interactions the calls to [onChange] only
    accumulate: the calls made before stay, in order, in front; with a
    callback there is exactly one more call per interaction, without one
    there is none. *)
Theorem onChange_called_once_per_interaction props l s :
  onChangeCalls s `prefix_of` onChangeCalls (interactAll props l s)
  ∧ length (onChangeCalls (interactAll props l s))
    = length (onChangeCalls s) + (if onChange props then length l else 0).
Proof.
  induction l as [|i l IH] using rev_ind.
  - simpl. split; [reflexivity|]. destruct (onChange props); lia.
  - unfold interactAll in *. rewrite foldl_app. simpl.
    destruct IH as [Hpre Hlen].
    assert (Hstep : onChangeCalls
                      (interact props i (foldl (λ s i, interact props i s) s l))
                    = onChangeCalls (foldl (λ s i, interact props i s) s l)
                      ++ (if onChange props
                          then [default VNull
                                  (last (onChangeCalls
                                     (interact props i
                                        (foldl (λ s i, interact props i s)
                                           s l))))]
                          else [])).
    { destruct i; simpl.
      - rewrite toggleItem_store. simpl. destruct (onChange props);
          [rewrite last_snoc|]; reflexivity.
      - rewrite toggleIndeterminate_store. simpl. destruct (onChange props);
          [rewrite last_snoc|]; reflexivity. }
    rewrite Hstep. split.
    + apply prefix_app_r. exact Hpre.
    + rewrite !length_app, Hlen. destruct (onChange props); simpl; lia.
Qed.

(** ** The aggregate toggle in an uncontrolled group *)

Lemma toggleIndeterminate_uncontrolled props s :
  isValueControlled props None = false →
  currentValue props (toggleIndeterminate props s)
  = VArray (if isAllSelected props s then []
            else Item.value <$> enabledItems props).
Proof.
  intros Hunc. rewrite currentValue_uncontrolled by exact Hunc.
  rewrite toggleIndeterminate_store. simpl. rewrite Hunc.
  unfold onIndeterminateNextValue.
  destruct (isAllSelected props s); reflexivity.
Qed.

(** X7: in an uncontrolled group the aggregate toggle never leaves the
    group half selected: fired when not all is selected it leads to "all",
    fired when all is selected it leads to "none", and in both cases the
    checkbox is no longer indeterminate. *)
Theorem aggregate_toggle_leaves_all_or_none props s :
  isValueControlled props None = false →
  isSomeSelected props (toggleIndeterminate props s) = false
  ∧ (isAllSelected props s = false →
     isAllSelected props (toggleIndeterminate props s) = true)
  ∧ (isAllSelected props s = true →
     isNoneSelected props (toggleIndeterminate props s) = true).
Proof.
  intros Hunc.
  pose proof (toggleIndeterminate_uncontrolled props s Hunc) as Hcur.
  assert (Hall : isAllSelected props s = false →
                 isAllSelected props (toggleIndeterminate props s) = true).
  { intros Hs. rewrite Hs in Hcur.
    apply (isAllSelected_array _ _ _ Hcur). apply length_fmap. }
  assert (Hnone : isAllSelected props s = true →
                  isNoneSelected props (toggleIndeterminate props s) = true).
  { intros Hs. rewrite Hs in Hcur.
    apply (isNoneSelected_array _ _ _ Hcur). reflexivity. }
  split; [|split; assumption].
  unfold isSomeSelected. destruct (isAllSelected props s).
  - rewrite Hnone by reflexivity. reflexivity.
  - rewrite Hall by reflexivity. apply andb_false_r.
Qed.

Lemma aggregate_toggle_leaves_all_or_none_witness :
  isSomeSelected (checkboxGroup true)
    (toggleItem (checkboxGroup true) (str "a") true
       (mount (checkboxGroup true))) = true
  ∧ isSomeSelected (checkboxGroup true)
      (toggleIndeterminate (checkboxGroup true)
         (toggleItem (checkboxGroup true) (str "a") true
            (mount (checkboxGroup true)))) = false
  ∧ isAllSelected (checkboxGroup true)
      (toggleIndeterminate (checkboxGroup true)
         (toggleItem (checkboxGroup true) (str "a") true
            (mount (checkboxGroup true)))) = true.
Proof.
  split; [reflexivity|].
  destruct (aggregate_toggle_leaves_all_or_none (checkboxGroup true)
              (toggleItem (checkboxGroup true) (str "a") true
                 (mount (checkboxGroup true))) eq_refl)
    as (Hsome & Hall & _).
  split; [exact Hsome|apply Hall; reflexivity].
Defined.

(** X8: in an uncontrolled group the aggregate toggle alternates between
    two selections: whatever the selection was, a third toggle gives what
    the first gave. *)
Theorem aggregate_toggle_alternates props s :
  isValueControlled props None = false →
  innerValue
    (toggleIndeterminate props
       (toggleIndeterminate props (toggleIndeterminate props s)))
  = innerValue (toggleIndeterminate props s).
Proof.
  intros Hunc.
  assert (Hstep : ∀ t, innerValue (toggleIndeterminate props t)
                       = VArray (if isAllSelected props t then []
                                 else Item.value <$> enabledItems props)).
  { intros t. rewrite <- (toggleIndeterminate_uncontrolled props t Hunc).
    symmetry. apply currentValue_uncontrolled. exact Hunc. }
  assert (Hflag : ∀ t, isAllSelected props (toggleIndeterminate props t) = true
                       ↔ length (if isAllSelected props t then []
                                 else Item.value <$> enabledItems props)
                         = length (enabledItems props)).
  { intros t. apply isAllSelected_array.
    apply toggleIndeterminate_uncontrolled. exact Hunc. }
  rewrite (Hstep (toggleIndeterminate props (toggleIndeterminate props s))).
  rewrite (Hstep s).
  destruct (isAllSelected props
              (toggleIndeterminate props (toggleIndeterminate props s)))
    eqn:H3.
  - apply Hflag in H3.
    destruct (isAllSelected props (toggleIndeterminate props s)) eqn:H2.
    + apply Hflag in H2. destruct (isAllSelected props s); [reflexivity|].
      simpl in H3. symmetry in H3. apply nil_length_inv in H3.
      rewrite H3. reflexivity.
    + apply not_true_iff_false in H2. rewrite Hflag in H2.
      destruct (isAllSelected props s); [reflexivity|].
      exfalso. apply H2. apply length_fmap.
  - apply not_true_iff_false in H3. rewrite Hflag in H3.
    destruct (isAllSelected props (toggleIndeterminate props s)) eqn:H2.
    + apply Hflag in H2. destruct (isAllSelected props s).
      * exfalso. apply H3. exact H2.
      * reflexivity.
    + exfalso. apply H3. apply length_fmap.
Qed.

Lemma aggregate_toggle_alternates_witness :
  innerValue
    (toggleIndeterminate (checkboxGroup false)
       (toggleIndeterminate (checkboxGroup false)
          (toggleIndeterminate (checkboxGroup false)
             (mount (checkboxGroup false)))))
  = VArray [str "a"; str "b"].
Proof.
  rewrite (aggregate_toggle_alternates (checkboxGroup false)
             (mount (checkboxGroup false)) eq_refl).
  reflexivity.
Defined.

(** ** The per-item handler at the edges *)

(** X9: in checkbox mode, while the selection is not an array ([null] or a
    string, as after a string default value), [onChangeHandler] makes the
    key itself the selection, also when the item is being unticked; in an
    uncontrolled group the selection then stays a string over item changes,
    and the aggregate toggle is what makes it an array. *)
Theorem checkbox_non_array_selects_key props s :
  inputTypeOf props = checkbox →
  isValueControlled props None = false →
  isArray (innerValue s) = false →
  (∀ key checked,
     onChangeNextValue props s key checked = VString key
     ∧ innerValue (toggleItem props key checked s) = VString key)
  ∧ isArray (innerValue (toggleIndeterminate props s)) = true.
Proof.
  intros Hty Hunc Hs. split.
  - intros key checked.
    assert (Hnext : onChangeNextValue props s key checked = VString key).
    { unfold onChangeNextValue.
      rewrite currentValue_uncontrolled by exact Hunc.
      destruct (innerValue s); try discriminate;
        destruct (bool_decide _); reflexivity. }
    split; [exact Hnext|].
    rewrite toggleItem_store. simpl. rewrite Hunc. exact Hnext.
  - rewrite toggleIndeterminate_store. simpl. rewrite Hunc. reflexivity.
Qed.

Lemma checkbox_non_array_selects_key_witness :
  innerValue (mount stringDefaultGroup) = VString (str "a")
  ∧ innerValue
      (toggleItem stringDefaultGroup (str "a") false
         (mount stringDefaultGroup))
    = VString (str "a")
  ∧ isArray (innerValue
               (toggleIndeterminate stringDefaultGroup
                  (mount stringDefaultGroup))) = true.
Proof.
  split; [reflexivity|].
  destruct (checkbox_non_array_selects_key stringDefaultGroup
              (mount stringDefaultGroup) eq_refl eq_refl eq_refl)
    as [Hitem Harr].
  split; [apply Hitem|exact Harr].
Defined.

(** X10: unticking an item whose key is not selected leaves the selection
    as it is, and unticking the same key again, in whatever render shows the
    unticked selection, changes nothing more. *)
Theorem untick_absent_or_again props s a key :
  inputTypeOf props = checkbox →
  currentValue props s = VArray a →
  (key ∉ a → onChangeNextValue props s key false = VArray a)
  ∧ (∀ props' s',
       inputTypeOf props' = checkbox →
       currentValue props' s' = onChangeNextValue props s key false →
       onChangeNextValue props' s' key false
       = onChangeNextValue props s key false).
Proof.
  intros Hty Hcur.
  rewrite (onChangeNextValue_checkbox _ _ a) by assumption. split.
  - intros Hnotin. rewrite filter_ne_notin by exact Hnotin. reflexivity.
  - intros props' s' Hty' Hcur'.
    rewrite (onChangeNextValue_checkbox _ _ _ _ _ Hty' Hcur').
    rewrite filter_ne_notin; [reflexivity|].
    rewrite list_elem_of_filter. intros [Hne _]. apply Hne. reflexivity.
Qed.

Lemma untick_absent_or_again_witness :
  onChangeNextValue bothTicked (mount bothTicked) (str "c") false
  = VArray [str "a"; str "b"].
Proof.
  assert (Hnotin : str "c" ∉ [str "a"; str "b"])
    by (apply (bool_decide_unpack _); vm_compute; exact I).
  destruct (untick_absent_or_again bothTicked (mount bothTicked)
              [str "a"; str "b"] (str "c") eq_refl eq_refl) as [Habsent _].
  exact (Habsent Hnotin).
Defined.

(** Every string the iterator yields is one code point. *)
Lemma stringIterator_code_points (s : jsstring) :
  Forall (λ part, isCodePoint part = true) (stringIterator s).
Proof.
  assert (H : ∀ n (t : jsstring),
             length t ≤ n →
             Forall (λ part, isCodePoint part = true) (stringIterator t)).
  { induction n as [|n IH]; intros [|c [|d t]] Hlen; simpl in *;
      try (constructor; fail); try lia.
    - repeat constructor.
    - destruct (isLeadingSurrogate c && isTrailingSurrogate d) eqn:Hpair.
      + constructor; [simpl; exact Hpair|]. apply IH. lia.
      + constructor; [reflexivity|]. apply (IH (d :: t)). simpl. lia. }
  apply (H (length s)). lia.
Qed.

(** On a string without leading surrogates every code unit is a code point,
    and the iterator yields the code units one by one. *)
Lemma stringIterator_units (s : jsstring) :
  Forall (λ c, isLeadingSurrogate c = false) s →
  stringIterator s = (λ c, [c]) <$> s.
Proof.
  induction s as [|c s IH]; intros Hs; [reflexivity|].
  apply Forall_cons in Hs as [Hc Hs].
  destruct s as [|d s]; [reflexivity|].
  change (stringIterator (c :: d :: s))
    with (if isLeadingSurrogate c && isTrailingSurrogate d
          then [c; d] :: stringIterator s
          else [c] :: stringIterator (d :: s)).
  rewrite Hc. simpl andb. cbv iota. rewrite (IH Hs). reflexivity.
Qed.

(** X11: in checkbox mode, with an array selected, ticking an item keeps the
    selection in front, unchanged, and appends the code points of the key,
    as the string iterator yields them: each appended element is one code
    point and joined together they are the key; for a key without surrogates
    they are its code units one by one; the key is appended as one element
    exactly when it is a single code point, and nothing is appended exactly
    for the empty key. *)
Theorem tick_appends_code_points props s a key :
  inputTypeOf props = checkbox →
  currentValue props s = VArray a →
  onChangeNextValue props s key true = VArray (a ++ stringIterator key)
  ∧ concat (stringIterator key) = key
  ∧ Forall (λ part, isCodePoint part = true) (stringIterator key)
  ∧ (Forall (λ c, isLeadingSurrogate c = false) key →
     onChangeNextValue props s key true = VArray (a ++ ((λ c, [c]) <$> key)))
  ∧ (onChangeNextValue props s key true = VArray (a ++ [key])
     ↔ isCodePoint key = true)
  ∧ (onChangeNextValue props s key true = VArray a ↔ key = []).
Proof.
  intros Hty Hcur.
  assert (Hnext : onChangeNextValue props s key true
                  = VArray (a ++ stringIterator key)).
  { rewrite (onChangeNextValue_checkbox _ _ a) by assumption. reflexivity. }
  rewrite Hnext. split; [reflexivity|]. split; [apply stringIterator_concat|].
  split; [apply stringIterator_code_points|]. split; [|split].
  - intros Hkey. rewrite stringIterator_units by exact Hkey. reflexivity.
  - rewrite <- stringIterator_singleton. split.
    + intros [= H]. exact (app_inv_head _ _ _ H).
    + intros ->. reflexivity.
  - split.
    + intros [= H]. rewrite <- (app_nil_r a) in H at 2.
      apply app_inv_head in H.
      rewrite <- (stringIterator_concat key), H. reflexivity.
    + intros ->. simpl. rewrite app_nil_r. reflexivity.
Qed.

Lemma tick_appends_code_points_witness :
  onChangeNextValue bothTicked (mount bothTicked) (str "cd") true
  = VArray [str "a"; str "b"; str "c"; str "d"]
  ∧ onChangeNextValue bothTicked (mount bothTicked) (str "cd") true
    = VArray ([str "a"; str "b"] ++ stringIterator (str "cd")).
Proof.
  split; [reflexivity|].
  destruct (tick_appends_code_points bothTicked (mount bothTicked)
              [str "a"; str "b"] (str "cd") eq_refl eq_refl) as [Hnext _].
  exact Hnext.
Defined.

(** X12: in checkbox mode, for a key that is a single code point and not
    selected, ticking the item and then unticking it, in whatever render
    shows the ticked selection (the caller's new value, or the state hook),
    gives back the selection as it was. *)
Theorem tick_untick_restores_selection props s a key props' s' :
  inputTypeOf props = checkbox →
  currentValue props s = VArray a →
  key ∉ a →
  isCodePoint key = true →
  inputTypeOf props' = checkbox →
  currentValue props' s' = onChangeNextValue props s key true →
  onChangeNextValue props' s' key false = VArray a.
Proof.
  intros Hty Hcur Hnotin Hcp Hty' Hcur'.
  rewrite (onChangeNextValue_checkbox _ _ a) in Hcur' by assumption.
  apply stringIterator_singleton in Hcp. rewrite Hcp in Hcur'.
  rewrite (onChangeNextValue_checkbox _ _ _ _ _ Hty' Hcur').
  rewrite list.filter_app, filter_ne_notin by exact Hnotin.
  rewrite filter_cons_False by (intros H; apply H; reflexivity).
  rewrite filter_nil, app_nil_r. reflexivity.
Qed.

Lemma tick_untick_restores_selection_witness :
  onChangeNextValue (controlledGroup (VArray [str "a"; str "b"; str "c"]))
    (mount bothTicked) (str "c") false
  = VArray [str "a"; str "b"].
Proof.
  assert (Hnotin : str "c" ∉ [str "a"; str "b"])
    by (apply (bool_decide_unpack _); vm_compute; exact I).
  exact (tick_untick_restores_selection bothTicked (mount bothTicked)
           [str "a"; str "b"] (str "c")
           (controlledGroup (VArray [str "a"; str "b"; str "c"]))
           (mount bothTicked) eq_refl eq_refl Hnotin eq_refl eq_refl eq_refl).
Defined.

(** ** Radio groups *)

(** X13: in an uncontrolled radio group the aggregate checkbox is never
    rendered, so only items change the selection, and after any non-empty
    sequence of interactions the selection is the key of the last item
    changed. *)
Theorem radio_selection_is_last_key props l :
  inputTypeOf props = radio →
  isValueControlled props None = false →
  Forall (λ i, canFire props i = true) l →
  l ≠ [] →
  showIndeterminate props = false
  ∧ ∃ key checked,
      last l = Some (ItemChange key checked)
      ∧ innerValue (interactAll props l (mount props)) = VString key.
Proof.
  intros Hty Hunc Hfire Hne.
  assert (Hshow : showIndeterminate props = false).
  { unfold showIndeterminate. rewrite Hty. apply andb_false_r. }
  split; [exact Hshow|].
  revert Hfire Hne.
  induction l as [|i l _] using rev_ind; intros Hfire Hne;
    [exfalso; apply Hne; reflexivity|].
  apply Forall_app in Hfire as [_ Hi]. rewrite Forall_singleton in Hi.
  destruct i as [key checked|];
    [|change (showIndeterminate props = true) in Hi; congruence].
  exists key, checked. split; [apply last_snoc|].
  unfold interactAll. rewrite foldl_app. simpl.
  rewrite toggleItem_store. simpl. rewrite Hunc.
  apply onChangeNextValue_radio. exact Hty.
Qed.

Lemma radio_selection_is_last_key_witness :
  showIndeterminate (radioGroup None) = false
  ∧ ∃ key checked,
      last [ItemChange (str "a") true; ItemChange (str "b") true]
      = Some (ItemChange key checked)
      ∧ innerValue
          (interactAll (radioGroup None)
             [ItemChange (str "a") true; ItemChange (str "b") true]
             (mount (radioGroup None)))
        = VString key.
Proof.
  apply (radio_selection_is_last_key (radioGroup None)
           [ItemChange (str "a") true; ItemChange (str "b") true]).
  - reflexivity.
  - reflexivity.
  - repeat constructor.
  - discriminate.
Defined.

(** ** Selecting all and unticking one *)

Lemma length_filter_ne_NoDup (key : jsstring) (a : list jsstring) :
  NoDup a → key ∈ a →
  length (filter (λ item, item ≠ key) a) + 1 = length a.
Proof.
  induction 1 as [|x a Hx Hnd IH]; intros Hin.
  - apply elem_of_nil in Hin. destruct Hin.
  - destruct (decide (x = key)) as [->|Hne].
    + rewrite filter_cons_False by (intros H; apply H; reflexivity).
      rewrite filter_ne_notin by exact Hx. simpl. lia.
    + rewrite filter_cons_True by exact Hne. simpl.
      apply elem_of_cons in Hin as [Heq|Hin]; [congruence|].
      rewrite <- (IH Hin). lia.
Qed.

(** X14: in an uncontrolled checkbox group whose eligible items carry
    distinct keys, at least two of them, selecting all through the aggregate
    checkbox and then unticking one eligible item leaves every eligible key
    but that one, and the aggregate checkbox indeterminate. *)
Theorem untick_after_select_all_is_some props s key :
  inputTypeOf props = checkbox →
  isValueControlled props None = false →
  NoDup (Item.value <$> enabledItems props) →
  key ∈ Item.value <$> enabledItems props →
  2 ≤ length (enabledItems props) →
  isAllSelected props s = false →
  innerValue (toggleItem props key false (toggleIndeterminate props s))
  = VArray (filter (λ item, item ≠ key) (Item.value <$> enabledItems props))
  ∧ length (filter (λ item, item ≠ key) (Item.value <$> enabledItems props))
    + 1 = length (enabledItems props)
  ∧ isSomeSelected props
      (toggleItem props key false (toggleIndeterminate props s)) = true.
Proof.
  intros Hty Hunc Hnd Hin Htwo Hs.
  pose proof (toggleIndeterminate_uncontrolled props s Hunc) as Hcur.
  rewrite Hs in Hcur.
  pose proof (length_filter_ne_NoDup key _ Hnd Hin) as Hlen.
  rewrite length_fmap in Hlen.
  assert (Hinner : innerValue
                     (toggleItem props key false (toggleIndeterminate props s))
                   = VArray (filter (λ item, item ≠ key)
                               (Item.value <$> enabledItems props))).
  { rewrite toggleItem_store. simpl. rewrite Hunc.
    rewrite (onChangeNextValue_checkbox _ _ _ _ _ Hty Hcur). reflexivity. }
  split; [exact Hinner|]. split; [exact Hlen|].
  assert (Hcur' : currentValue props
                    (toggleItem props key false (toggleIndeterminate props s))
                  = VArray (filter (λ item, item ≠ key)
                              (Item.value <$> enabledItems props))).
  { rewrite currentValue_uncontrolled by exact Hunc. exact Hinner. }
  unfold isSomeSelected. apply andb_true_iff. split; apply negb_true_iff.
  - apply not_true_iff_false. rewrite (isNoneSelected_array _ _ _ Hcur'). lia.
  - apply not_true_iff_false. rewrite (isAllSelected_array _ _ _ Hcur'). lia.
Qed.

Lemma untick_after_select_all_is_some_witness :
  innerValue
    (toggleItem (checkboxGroup false) (str "a") false
       (toggleIndeterminate (checkboxGroup false)
          (mount (checkboxGroup false))))
  = VArray [str "b"]
  ∧ isSomeSelected (checkboxGroup false)
      (toggleItem (checkboxGroup false) (str "a") false
         (toggleIndeterminate (checkboxGroup false)
            (mount (checkboxGroup false)))) = true.
Proof.
  assert (Hnd : NoDup (Item.value <$> enabledItems (checkboxGroup false)))
    by (apply (bool_decide_unpack _); vm_compute; exact I).
  assert (Hin : str "a" ∈ Item.value <$> enabledItems (checkboxGroup false))
    by (apply (bool_decide_unpack _); vm_compute; exact I).
  assert (Htwo : 2 ≤ length (enabledItems (checkboxGroup false)))
    by (vm_compute; lia).
  destruct (untick_after_select_all_is_some (checkboxGroup false)
              (mount (checkboxGroup false)) (str "a")
              eq_refl eq_refl Hnd Hin Htwo eq_refl) as (Hinner & _ & Hsome).
  split; [exact Hinner|exact Hsome].
Defined.

(** ** Element ids *)

Lemma app_suffix_ne (id1 id2 pre1 pre2 : jsstring) (c1 c2 : N) :
  c1 ≠ c2 → id1 ++ pre1 ++ [c1] ≠ id2 ++ pre2 ++ [c2].
Proof.
  intros Hne Heq. rewrite !app_assoc in Heq.
  apply app_inj_tail in Heq as [_ Hc]. congruence.
Qed.

(** X15: the ids the group derives never collide: the id of the aggregate
    checkbox and the default id of the helper differ from the group's own id
    and from each other, also across groups, and groups with different ids
    get different derived ids. A helper that brings its own id keeps it. *)
Theorem derived_ids_distinct id1 id2 h :
  FormHelper.id h = None →
  helperId id1 (Some h) ≠ Some id1
  ∧ indeterminateId id1 ≠ id1
  ∧ helperId id1 (Some h) ≠ Some (indeterminateId id2)
  ∧ (helperId id1 (Some h) = helperId id2 (Some h) → id1 = id2)
  ∧ (indeterminateId id1 = indeterminateId id2 → id1 = id2)
  ∧ (∀ k, helperId id1 (Some (FormHelper.mk (Some k))) = Some k).
Proof.
  intros Hh. unfold helperId, indeterminateId. rewrite Hh. simpl.
  split; [|split; [|split; [|split; [|split]]]].
  - intros [= H]. apply (f_equal length) in H.
    rewrite length_app in H. vm_compute (length (str "-helper")) in H. lia.
  - intros H. apply (f_equal length) in H.
    rewrite length_app in H. vm_compute (length (str "-indeterminate")) in H.
    lia.
  - intros [= H].
    apply (app_suffix_ne id1 id2 (str "-helpe") (str "-indeterminat")
             114%N 101%N); [discriminate|exact H].
  - intros [= H]. exact (app_inv_tail _ _ _ H).
  - intros H. exact (app_inv_tail _ _ _ H).
  - reflexivity.
Qed.

Lemma derived_ids_distinct_witness :
  helperId (str "group") (Some (FormHelper.mk None))
  = Some (str "group-helper")
  ∧ helperId (str "group") (Some (FormHelper.mk None))
    ≠ Some (indeterminateId (str "group-helper")).
Proof.
  split; [reflexivity|].
  apply (derived_ids_distinct (str "group") (str "group-helper")
           (FormHelper.mk None) eq_refl).
Defined.

(** ** The props of the aggregate checkbox *)

(** X16: whatever [indeterminateCheckProps] holds, the aggregate checkbox
    receives the component's own [onChange], [checked], [indeterminate] and
    [label], and never a prop [indented]; every other prop the caller gives
    is passed on, also in place of the default [id], [value] and [name],
    and without one from the caller the id is the derived one. *)
Theorem checkProps_computed_props_win id props s icp :
  checkProps id props s icp !! "onChange" = Some PHandler
  ∧ checkProps id props s icp !! "checked"
    = Some (PBool (isAllSelected props s))
  ∧ checkProps id props s icp !! "indeterminate"
    = Some (PBool (isSomeSelected props s))
  ∧ checkProps id props s icp !! "label"
    = Some (PString (getIndeterminateLabel props s))
  ∧ checkProps id props s icp !! "indented" = None
  ∧ (∀ k v,
       k ∉ ["onChange"; "checked"; "indeterminate"; "label"; "indented"] →
       default ∅ icp !! k = Some v →
       checkProps id props s icp !! k = Some v)
  ∧ (default ∅ icp !! "id" = None →
     checkProps id props s icp !! "id" = Some (PString (indeterminateId id))).
Proof.
  unfold checkProps.
  split; [|split; [|split; [|split; [|split; [|split]]]]].
  - apply lookup_insert_eq.
  - rewrite lookup_insert_ne by discriminate. apply lookup_insert_eq.
  - rewrite !lookup_insert_ne by discriminate. apply lookup_insert_eq.
  - rewrite !lookup_insert_ne by discriminate. apply lookup_insert_eq.
  - rewrite !lookup_insert_ne by discriminate.
    apply lookup_union_None. split; [apply lookup_delete_eq|].
    rewrite !lookup_insert_ne by discriminate. apply lookup_empty.
  - intros k v Hk Hv.
    rewrite !not_elem_of_cons in Hk.
    destruct Hk as (H1 & H2 & H3 & H4 & H5 & _).
    rewrite !lookup_insert_ne by congruence.
    apply lookup_union_Some_l. rewrite lookup_delete_ne by congruence.
    exact Hv.
  - intros Hid. rewrite !lookup_insert_ne by discriminate.
    rewrite lookup_union_r by (rewrite lookup_delete_ne by discriminate;
                               exact Hid).
    rewrite !lookup_insert_ne by discriminate. apply lookup_insert_eq.
Qed.

(** A caller who passes [indented], an own [id], and, against the declared
    type, a [checked] of its own. *)
Lemma checkProps_computed_props_win_witness :
  checkProps (str "group") bothTicked (mount bothTicked)
    (Some (<["indented" := PBool false]>
             (<["id" := PString (str "all")]>
                (<["checked" := PBool false]> ∅))))
  !! "checked" = Some (PBool true)
  ∧ checkProps (str "group") bothTicked (mount bothTicked)
      (Some (<["indented" := PBool false]>
               (<["id" := PString (str "all")]>
                  (<["checked" := PBool false]> ∅))))
    !! "id" = Some (PString (str "all"))
  ∧ checkProps (str "group") bothTicked (mount bothTicked) None !! "id"
    = Some (PString (str "group-indeterminate")).
Proof.
  split; [|split].
  - destruct (checkProps_computed_props_win (str "group") bothTicked
                (mount bothTicked)
                (Some (<["indented" := PBool false]>
                         (<["id" := PString (str "all")]>
                            (<["checked" := PBool false]> ∅)))))
      as (_ & Hchecked & _).
    rewrite Hchecked. reflexivity.
  - destruct (checkProps_computed_props_win (str "group") bothTicked
                (mount bothTicked)
                (Some (<["indented" := PBool false]>
                         (<["id" := PString (str "all")]>
                            (<["checked" := PBool false]> ∅)))))
      as (_ & _ & _ & _ & _ & Hfwd & _).
    apply Hfwd.
    + rewrite !not_elem_of_cons. repeat split; try discriminate.
      apply not_elem_of_nil.
    + simpl. rewrite lookup_insert_ne by discriminate.
      apply lookup_insert_eq.
  - destruct (checkProps_computed_props_win (str "group") bothTicked
                (mount bothTicked) None)
      as (_ & _ & _ & _ & _ & _ & Hid).
    apply Hid. apply lookup_empty.
Defined.

(** ** A group that stops being controlled *)

(** X17: when a group that has been controlled is rendered without a value
    or without a callback, it shows the value its state hook was seeded
    with at mount, not the value the caller passed last: nothing was stored
    while the group was controlled. *)
Theorem uncontrolled_after_controlled_shows_seed props props' s :
  isValueControlled props None = true →
  reachable props s →
  isValueControlled props' None = false →
  currentValue props' s = initialInnerValue props.
Proof.
  intros Hc Hreach Hunc.
  rewrite currentValue_uncontrolled by exact Hunc.
  apply controlled_innerValue_seed; assumption.
Qed.

Lemma uncontrolled_after_controlled_shows_seed_witness :
  currentValue bothTicked
    (toggleItem bothTicked (str "a") false (mount bothTicked))
  = VArray [str "a"; str "b"]
  ∧ currentValue (checkboxGroup true)
      (toggleItem bothTicked (str "a") false (mount bothTicked))
    = VArray [].
Proof.
  split; [reflexivity|].
  apply (uncontrolled_after_controlled_shows_seed bothTicked
           (checkboxGroup true)).
  - reflexivity.
  - do 2 constructor.
  - reflexivity.
Defined.
